(** * Reaction-role cog ([cogs/reactionrole.py]): a shallow embedding

    The cog lets a moderator attach buttons to a message; clicking a button
    toggles a role on the clicking member.  The button/role mapping is kept in
    the JSON file [CONFIG_FILE], a dict keyed by [str(guild_id)], then by
    [str(message_id)], holding the list of button dicts in insertion order.

    Python dicts are finite maps ([gmap string _]), Python ints are [Z],
    exceptions are an error monad, and the one file the cog touches is an
    explicit [Disk] value threaded through the calls. *)

From Stdlib Require Import ZArith Ascii String DecimalString DecimalZ DecimalPos.
From stdpp Require Import gmap strings list fin_maps.

Local Open Scope Z_scope.
Local Open Scope string_scope.
Local Open Scope list_scope.

(** ** Python: exceptions, [str] and [int] *)

Inductive Exception :=
| JSONDecodeError   (* json.load on text that is not JSON *)
| AttributeError    (* attribute of None, or getattr on a missing name *)
| IndexError        (* parts[-2] on a list that is too short *)
| KeyError          (* d[k] with k not in d *)
| ValueError        (* int(s) on a non-numeric s; a full view *)
| Forbidden         (* discord.Forbidden *)
| NotFound          (* discord.NotFound *)
| HTTPException.    (* any other discord.HTTPException *)

Inductive result (A : Type) :=
| Return (a : A)
| Raise (e : Exception).
Arguments Return {A} a.
Arguments Raise {A} e.

#[export] Instance result_ret : MRet result := fun A a => Return a.
#[export] Instance result_bind : MBind result := fun A B f m =>
  match m with
  | Return a => f a
  | Raise e => Raise e
  end.

(** [str(n)] for an int: the decimal numeral, with a leading [-] when
    negative. *)
Definition str (n : Z) : string := NilZero.string_of_int (Z.to_int n).

(** [int(s)] for a str.  Python also accepts a leading [+], surrounding
    white space and [_] between digits; those spellings never come out of
    [str] and are rejected here with [ValueError] as any other non-numeral
    is. *)
Definition int (s : string) : result Z :=
  match NilZero.int_of_string s with
  | Some d => Return (Z.of_int d)
  | None => Raise ValueError
  end.

(** [d[k]] on a dict: [KeyError] when the key is missing. *)
Definition getitem {V} (d : gmap string V) (k : string) : result V :=
  match d !! k with
  | Some v => Return v
  | None => Raise KeyError
  end.

(** ** discord: button styles and views *)

(** [discord.ButtonStyle].  [red], [green], [blurple] and [grey] are the
    library's aliases of [danger], [success], [primary] and [secondary]. *)
Inductive ButtonStyle := primary | secondary | success | danger | link | premium.

Definition blurple := primary.
Definition grey := secondary.
Definition green := success.
Definition red := danger.

#[export] Instance ButtonStyle_eq_dec : EqDecision ButtonStyle.
Proof. solve_decision. Defined.

(** [getattr(discord.ButtonStyle, name)]: the members and their aliases;
    any other name raises [AttributeError].  Attributes of the class that
    are no styles, such as [__doc__], are left out. *)
Definition ButtonStyle_getattr (name : string) : result ButtonStyle :=
  if decide (name = "primary") then Return primary
  else if decide (name = "blurple") then Return blurple
  else if decide (name = "secondary") then Return secondary
  else if decide (name = "grey") then Return grey
  else if decide (name = "gray") then Return grey
  else if decide (name = "success") then Return success
  else if decide (name = "green") then Return green
  else if decide (name = "danger") then Return danger
  else if decide (name = "red") then Return red
  else if decide (name = "link") then Return link
  else if decide (name = "url") then Return link
  else if decide (name = "premium") then Return premium
  else Raise AttributeError.

(** ** [ReactionRoleButton] *)

(** The button: [style], [emoji] and [custom_id] are the fields of
    [discord.ui.Button] that [__init__] sets through [super().__init__],
    [role_id] is the cog's own. *)
Record ReactionRoleButton := {
  style : ButtonStyle;
  emoji : string;
  custom_id : string;
  role_id : Z
}.

(** [ReactionRoleButton.__init__(self, role_id, emoji, colour)] *)
Definition ReactionRoleButton_init (role_id : Z) (emoji : string)
    (colour : ButtonStyle) : ReactionRoleButton :=
  {| style := colour; emoji := emoji; custom_id := str role_id;
     role_id := role_id |}.

#[export] Instance ReactionRoleButton_eq_dec : EqDecision ReactionRoleButton.
Proof. solve_decision. Defined.

(** What [interaction.response.send_message] is given, by embed title. *)
Inductive Embed :=
| RoleRemoved (role : Z)
| RoleAssigned (role : Z)
| PermissionError
| Error (e : Exception)
| ReactionRoleAdded (message_link : string).

Inductive Toggle := Grant | Revoke.

(** The test of [callback], [if role in user.roles]: remove the role when
    the member has it, add it otherwise.  Roles compare by id. *)
Definition toggle_decision (role : Z) (roles : list Z) : Toggle :=
  if bool_decide (role ∈ roles) then Revoke else Grant.

(** [guild.get_role(role_id)]: the role, or None when the guild has none
    with that id. *)
Definition get_role (guild_roles : list Z) (role_id : Z) : option Z :=
  if bool_decide (role_id ∈ guild_roles) then Some role_id else None.

(** The two [except] clauses of [callback]. *)
Definition callback_handler (e : Exception) : Embed :=
  match e with
  | Forbidden => PermissionError
  | _ => Error e
  end.

(** [ReactionRoleButton.callback].  The state is the member's role list;
    [api] is what the platform answers to [remove_roles]/[add_roles]
    ([None]: done, [Some e]: raises [e]).  When [get_role] gives None the
    membership test is false and [add_roles(None)] raises
    [AttributeError]. *)
Definition callback (self : ReactionRoleButton) (guild_roles : list Z)
    (api : option Exception) (user_roles : list Z) : list Z * Embed :=
  match get_role guild_roles self.(role_id) with
  | Some role =>
      match toggle_decision role user_roles, api with
      | Revoke, None =>
          (filter (λ r, r ≠ role) user_roles, RoleRemoved role)
      | Grant, None => (user_roles ++ [role], RoleAssigned role)
      | _, Some e => (user_roles, callback_handler e)
      end
  | None => (user_roles, callback_handler AttributeError)
  end.

(** ** The configuration file *)

Definition CONFIG_FILE : string := "reaction_roles.json".

(** One saved button, the dict [{"role_id": ..., "emoji": ..., "colour": ...}]
    that [reaction_role] hands to [save_config].  [load_config] reads
    ["emoji"] with [.get] and a default, so a file may lack that key: it is
    optional here. *)
Record ButtonDict := {
  dict_role_id : Z;
  dict_emoji : option string;
  dict_colour : string
}.

#[export] Instance ButtonDict_eq_dec : EqDecision ButtonDict.
Proof. solve_decision. Defined.

(** The whole mapping: [str(guild_id)] to [str(message_id)] to the list of
    saved buttons. *)
Abbreviation Messages := (gmap string (list ButtonDict)).
Abbreviation Config := (gmap string Messages).

(** The text of [CONFIG_FILE], up to what [json.load] makes of it: either
    it parses to a configuration, which is the case of everything
    [json.dump] has written in full, or it does not parse.  An empty file
    and a strict prefix of a dump do not parse. *)
Inductive File :=
| Json (config : Config)
| NotJson.

(** The file system at [CONFIG_FILE]: [None] when [os.path.exists] is
    false. *)
Definition Disk := option File.

(** [json.load(f)] *)
Definition json_load (f : File) : result Config :=
  match f with
  | Json config => Return config
  | NotJson => Raise JSONDecodeError
  end.

(** [k in d] on a dict. *)
Definition contains {V} (d : gmap string V) (k : string) : bool :=
  bool_decide (is_Some (d !! k)).

(** Lines 119-123 of [save_config]: the file's configuration, or [{}] when
    there is no file. *)
Definition read_config (disk : Disk) : result Config :=
  match disk with
  | Some f => json_load f
  | None => Return ∅
  end.

(** Lines 125-131 of [save_config]: create the guild and message entries
    when missing, then append.  The nested dicts and the list are updated
    in place in Python; here the update is written back along the path. *)
Definition append_button (guild_id message_id : Z) (button : ButtonDict)
    (config : Config) : result Config :=
  let config :=
    if contains config (str guild_id) then config
    else <[str guild_id := ∅]> config in
  messages ← getitem config (str guild_id);
  let config :=
    if contains messages (str message_id) then config
    else <[str guild_id := <[str message_id := []]> messages]> config in
  messages ← getitem config (str guild_id);
  buttons ← getitem messages (str message_id);
  Return (<[str guild_id := <[str message_id := buttons ++ [button]]> messages]>
            config).

(** Lines 133-134 of [save_config], [open(CONFIG_FILE, "w")] followed by
    [json.dump(config, f, indent=4)], as the states the file goes through:
    as it was, truncated by [open] (and then a growing prefix of the dump,
    none of which parses), and the dump in full. *)
Definition write_steps (config : Config) (disk : Disk) : list Disk :=
  [disk; Some NotJson; Some (Json config)].

(** The write when it runs to its end. *)
Definition write_config (config : Config) (disk : Disk) : Disk :=
  default disk (last (write_steps config disk)).

(** [ReactionRole.save_config(self, guild_id, message_id, button)]: the new
    disk and how the call ends. *)
Definition save_config (guild_id message_id : Z) (button : ButtonDict)
    (disk : Disk) : Disk * result () :=
  match read_config disk ≫= append_button guild_id message_id button with
  | Return config => (write_config config disk, Return ())
  | Raise e => (disk, Raise e)
  end.

(** The disks an interrupted [save_config] can leave behind: wherever the
    process stops, the file is in one of the states of the write, or
    untouched when the call had not reached the write. *)
Definition save_config_interrupted (guild_id message_id : Z)
    (button : ButtonDict) (disk : Disk) : list Disk :=
  match read_config disk ≫= append_button guild_id message_id button with
  | Return config => write_steps config disk
  | Raise e => [disk]
  end.

(** ** Views and the bot *)

(** A [discord.ui.View]: its children in the order they were added. *)
Definition View := list ReactionRoleButton.

(** The most items a view takes. *)
Definition View_max_children : nat := 25.

(** [view.add_item(item)]: the library raises [ValueError] on a full
    view. *)
Definition add_item (view : View) (item : ReactionRoleButton) : result View :=
  if decide (View_max_children ≤ length view)%nat then Raise ValueError
  else Return (view ++ [item]).

(** The bot, as far as the cog uses it: the views registered with
    [bot.add_view(view, message_id=...)] in call order, and the cogs added
    with [bot.add_cog]. *)
Record Bot := {
  views : list (Z * View);
  cogs : list string
}.

Definition add_view (bot : Bot) (view : View) (message_id : Z) : Bot :=
  {| views := bot.(views) ++ [(message_id, view)]; cogs := bot.(cogs) |}.

Definition add_cog (bot : Bot) (name : string) : Bot :=
  {| views := bot.(views); cogs := bot.(cogs) ++ [name] |}.

(** The default of [button.get("emoji", ...)] in [load_config] and of the
    [emoji] parameter of [reaction_role]. *)
Definition default_emoji : string := "🔘".

(** The innermost loop of [load_config]: one button per saved dict. *)
Fixpoint load_buttons (buttons : list ButtonDict) (view : View) : result View :=
  match buttons with
  | [] => Return view
  | button :: rest =>
      let role_id := button.(dict_role_id) in
      let emoji := default default_emoji button.(dict_emoji) in
      colour ← ButtonStyle_getattr button.(dict_colour);
      view ← add_item view (ReactionRoleButton_init role_id emoji colour);
      load_buttons rest view
  end.

(** The loop over [messages.items()]: a view per message, registered under
    [int(message_id)].  What was registered before an exception stays
    registered. *)
Fixpoint load_messages (messages : list (string * list ButtonDict))
    (bot : Bot) : Bot * result () :=
  match messages with
  | [] => (bot, Return ())
  | (message_id, buttons) :: rest =>
      match load_buttons buttons [] with
      | Raise e => (bot, Raise e)
      | Return view =>
          match int message_id with
          | Raise e => (bot, Raise e)
          | Return id => load_messages rest (add_view bot view id)
          end
      end
  end.

(** The loop over [config.items()]. *)
Fixpoint load_guilds (guilds : list (string * Messages)) (bot : Bot)
    : Bot * result () :=
  match guilds with
  | [] => (bot, Return ())
  | (guild_id, messages) :: rest =>
      match load_messages (map_to_list messages) bot with
      | (bot, Return _) => load_guilds rest bot
      | (bot, Raise e) => (bot, Raise e)
      end
  end.

(** [ReactionRole.load_config(self)].  Python walks the dicts in the order
    of the file; the finite maps are walked in the order of [map_to_list].
    No statement below depends on that order. *)
Definition load_config (bot : Bot) (disk : Disk) : Bot * result () :=
  match disk with
  | Some f =>
      match json_load f with
      | Return config => load_guilds (map_to_list config) bot
      | Raise e => (bot, Raise e)
      end
  | None => (bot, Return ())
  end.

(** [ReactionRole.__init__(self, bot)]: keeps the bot, opens a session and
    calls [load_config], whose exceptions it lets through. *)
Definition ReactionRole_init (bot : Bot) (disk : Disk) : Bot * result () :=
  load_config bot disk.

(** [setup(bot)]: [bot.add_cog(ReactionRole(bot))]. *)
Definition setup (bot : Bot) (disk : Disk) : Bot * result () :=
  match ReactionRole_init bot disk with
  | (bot, Return _) => (add_cog bot "ReactionRole", Return ())
  | (bot, Raise e) => (bot, Raise e)
  end.

(** ** The [reaction_role] command *)

(** [s.split(sep)] for a separator of one character. *)
Fixpoint split (sep : ascii) (s : string) : list string :=
  match s with
  | EmptyString => [""]
  | String c rest =>
      if decide (c = sep) then "" :: split sep rest
      else match split sep rest with
           | part :: parts => String c part :: parts
           | [] => [String c ""]
           end
  end.

(** [parts[-k]] for [k] at least 1. *)
Definition from_end (parts : list string) (k : nat) : result string :=
  match rev parts !! pred k with
  | Some part => Return part
  | None => Raise IndexError
  end.

(** A child of an action row of [message.components], with the three
    attributes the command reads: [custom_id], [str(emoji)] and [style]. *)
Record Item := {
  item_custom_id : string;
  item_emoji : string;
  item_style : ButtonStyle
}.

Definition item_of (button : ReactionRoleButton) : Item :=
  {| item_custom_id := button.(custom_id); item_emoji := button.(emoji);
     item_style := button.(style) |}.

(** The action rows a view is sent as: five buttons to a row, in order. *)
Fixpoint rows_of (fuel : nat) (items : list Item) : list (list Item) :=
  match fuel, items with
  | _, [] => []
  | O, _ => []
  | S fuel, _ => take 5 items :: rows_of fuel (drop 5 items)
  end.

Definition components_of (view : View) : list (list Item) :=
  rows_of (length view) (item_of <$> view).

(** What the command runs against: the file, the bot, and the platform's
    channels with their messages, each message with its components. *)
Record World := {
  w_disk : Disk;
  w_bot : Bot;
  w_channels : gmap Z (gmap Z (list (list Item)))
}.

(** [colour_map.get(colour, discord.ButtonStyle.grey)] *)
Definition colour_map_get (colour : string) : ButtonStyle :=
  if decide (colour = "red") then red
  else if decide (colour = "green") then green
  else if decide (colour = "blurple") then blurple
  else if decide (colour = "grey") then grey
  else grey.

(** [random.choice(["red", "green", "blurple", "grey"])], the draw being
    the argument [choice]. *)
Definition random_choice (choice : nat) : string :=
  nth (choice mod 4)%nat ["red"; "green"; "blurple"; "grey"] "grey".

(** The inner loop of lines 180-184: a button per child of an action row,
    its role id read back from [custom_id]. *)
Fixpoint rebuild_row (children : list Item) (view : View) : result View :=
  match children with
  | [] => Return view
  | item :: rest =>
      id ← int item.(item_custom_id);
      view ← add_item view
        (ReactionRoleButton_init id item.(item_emoji) item.(item_style));
      rebuild_row rest view
  end.

(** The outer loop, over [message.components]. *)
Fixpoint rebuild_rows (components : list (list Item)) (view : View)
    : result View :=
  match components with
  | [] => Return view
  | action_row :: rest =>
      view ← rebuild_row action_row view;
      rebuild_rows rest view
  end.

(** The saved dict of line 191. *)
Definition button_dict (role : Z) (emoji colour : string) : ButtonDict :=
  {| dict_role_id := role; dict_emoji := Some emoji; dict_colour := colour |}.

(** Lines 157-185 of [reaction_role]: nothing is changed yet; the outcome
    is the channel and message ids, the colour name and the view. *)
Definition reaction_role_prepare (message_link : string) (role : Z)
    (emoji : string) (colour : option string) (choice : nat) (w : World)
    : result (Z * Z * string * View) :=
  let parts := split "/"%char message_link in
  channel_id ← from_end parts 2 ≫= int;
  message_id ← from_end parts 1 ≫= int;
  channel ← match w.(w_channels) !! channel_id with
            | Some channel => Return channel
            | None => Raise AttributeError
            end;
  components ← match channel !! message_id with
               | Some components => Return components
               | None => Raise NotFound
               end;
  let colour := default (random_choice choice) colour in
  let button_colour := colour_map_get colour in
  let button := ReactionRoleButton_init role emoji button_colour in
  view ← rebuild_rows components [];
  view ← add_item view button;
  Return (channel_id, message_id, colour, view).

(** The [try] block of [reaction_role].  [guild] is [interaction.guild]
    (None outside a guild), [edit] what the platform answers to
    [message.edit] ([None]: done).  The view is registered and the button
    saved before the message is edited, and both stay so when the edit
    raises. *)
Definition reaction_role_try (guild : option Z) (message_link : string)
    (role : Z) (emoji : string) (colour : option string) (choice : nat)
    (edit : option Exception) (w : World) : World * result () :=
  match reaction_role_prepare message_link role emoji colour choice w with
  | Raise e => (w, Raise e)
  | Return (channel_id, message_id, colour, view) =>
      let bot := add_view w.(w_bot) view message_id in
      let w := {| w_disk := w.(w_disk); w_bot := bot;
                  w_channels := w.(w_channels) |} in
      match guild with
      | None => (w, Raise AttributeError)
      | Some guild_id =>
          let '(disk, saved) :=
            save_config guild_id message_id (button_dict role emoji colour)
              w.(w_disk) in
          let w := {| w_disk := disk; w_bot := bot;
                      w_channels := w.(w_channels) |} in
          match saved, edit with
          | Raise e, _ => (w, Raise e)
          | Return _, Some e => (w, Raise e)
          | Return _, None =>
              ({| w_disk := disk; w_bot := bot;
                  w_channels :=
                    alter (insert message_id (components_of view)) channel_id
                      w.(w_channels) |},
               Return ())
          end
      end
  end.

(** [ReactionRole.reaction_role]: what the command leaves behind and the
    embed it answers with. *)
Definition reaction_role (guild : option Z) (message_link : string)
    (role : Z) (emoji : string) (colour : option string) (choice : nat)
    (edit : option Exception) (w : World) : World * Embed :=
  match reaction_role_try guild message_link role emoji colour choice edit w with
  | (w, Return _) => (w, ReactionRoleAdded message_link)
  | (w, Raise e) => (w, Error e)
  end.

(** ** The registry read off the configuration *)

(** [config[guild][message]] when both keys are there. *)
Definition buttons_at (config : Config) (guild message : string)
    : option (list ButtonDict) :=
  config !! guild ≫= (.!! message).

(** The trigger identifier of a saved button: the [custom_id] that
    [load_config] gives the button it builds from the dict. *)
Definition trigger_id (button : ButtonDict) : string :=
  str button.(dict_role_id).

(** One call [save_config(guild_id, message_id, button)]. *)
Record Call := {
  call_guild : Z;
  call_message : Z;
  call_button : ButtonDict
}.

(** The (scope, anchor, trigger) triple of a call. *)
Definition triple (call : Call) : string * string * string :=
  (str call.(call_guild), str call.(call_message),
   trigger_id call.(call_button)).

(** The triple is in the configuration. *)
Definition present (config : Config) (t : string * string * string) : Prop :=
  ∃ buttons button,
    buttons_at config t.1.1 t.1.2 = Some buttons ∧
    button ∈ buttons ∧ trigger_id button = t.2.

(** How many entries of a list carry a trigger identifier. *)
Definition occurrences (trigger : string) (buttons : list ButtonDict) : nat :=
  length (filter (λ button, trigger_id button = trigger) buttons).

(** No list of the configuration holds a trigger identifier twice. *)
Definition unique_triggers (config : Config) : Prop :=
  ∀ guild message buttons,
    buttons_at config guild message = Some buttons →
    NoDup (trigger_id <$> buttons).





(** The configuration after [append_button], in closed form. *)
Definition appended (guild_id message_id : Z) (button : ButtonDict)
    (config : Config) : Config :=
  <[str guild_id :=
      <[str message_id :=
          default [] (buttons_at config (str guild_id) (str message_id))
            ++ [button]]>
        (default ∅ (config !! str guild_id))]>
    config.


(** The calls aimed at one (guild, message) pair of keys. *)
Definition aimed_at (guild message : string) (call : Call) : Prop :=
  str call.(call_guild) = guild ∧ str call.(call_message) = message.

#[export] Instance aimed_at_dec guild message call :
  Decision (aimed_at guild message call).
Proof. unfold aimed_at. apply _. Defined.

(** ** Further definitions *)

(** [ReactionRoleView.__init__(self, buttons=None)]: the buttons are added
    one by one when the list is given and not empty. *)
Definition ReactionRoleView_init (buttons : option (list ReactionRoleButton))
    : result View :=
  match buttons with
  | Some buttons =>
      foldl (λ view button, view ≫= λ view, add_item view button) (Return [])
        buttons
  | None => Return []
  end.

(** The keys of [colour_map], which are also the names that
    [random.choice] draws from. *)
Definition colour_names : list string := ["red"; "green"; "blurple"; "grey"].

(** A button whose trigger identifier is the numeral of its role. *)
Definition button_ok (button : ReactionRoleButton) : Prop :=
  button.(custom_id) = str button.(role_id).

(** ** A running example

    Guild 1, message 20 in channel 10, role 7. *)

Definition example_button : ButtonDict := button_dict 7 "x" "red".

Definition example_button' : ButtonDict := button_dict 7 "y" "green".

Definition example_call : Call :=
  {| call_guild := 1; call_message := 20; call_button := example_button |}.



(** The file after the first button was attached. *)
Definition example_config : Config := {[ "1" := {[ "20" := [example_button] ]} ]}.

(** The same with role 7 attached to the message a second time. *)
Definition twice_config : Config :=
  {[ "1" := {[ "20" := [example_button; example_button] ]} ]}.


Definition example_link : string := "https://discord.com/channels/1/10/20".

Definition example_bot : Bot := {| views := []; cogs := [] |}.

(** No file yet, and the message without components. *)
Definition example_world : World :=
  {| w_disk := None; w_bot := example_bot;
     w_channels := {[ 10 := {[ 20 := [] ]} ]} |}.

(** ** [str] and [int] *)

Lemma int_str (n : Z) : int (str n) = Return n.
Proof.
  unfold int, str.
  rewrite NilZero.isi.
  - by rewrite DecimalZ.of_to.
  - destruct n as [|p|p]; simpl; try discriminate.
    intros [= H]. by apply (Unsigned.to_uint_nonnil p).
  - destruct n as [|p|p]; simpl; try discriminate.
    intros [= H]. by apply (Unsigned.to_uint_nonnil p).
Qed.

#[export] Instance str_inj : Inj (=) (=) str.
Proof.
  intros n1 n2 H.
  assert (Hi : int (str n1) = int (str n2)) by (by rewrite H).
  rewrite !int_str in Hi. by injection Hi.
Qed.

(** ** [save_config] in closed form *)

Lemma contains_true {V} (d : gmap string V) k v :
  d !! k = Some v → contains d k = true.
Proof. intros H. unfold contains. apply bool_decide_eq_true. by eexists. Qed.

Lemma contains_false {V} (d : gmap string V) k :
  d !! k = None → contains d k = false.
Proof.
  intros H. unfold contains. apply bool_decide_eq_false.
  rewrite H. by intros [? ?].
Qed.

Lemma append_button_appended guild_id message_id button (config : Config) :
  append_button guild_id message_id button config
  = Return (appended guild_id message_id button config).
Proof.
  unfold append_button, appended, buttons_at, getitem.
  destruct (config !! str guild_id) as [messages|] eqn:Hg; simpl.
  - rewrite (contains_true _ _ _ Hg), Hg. simpl.
    destruct (messages !! str message_id) as [buttons|] eqn:Hm; simpl.
    + rewrite (contains_true _ _ _ Hm), Hg. simpl. by rewrite Hm.
    + rewrite (contains_false _ _ Hm), lookup_insert_eq. simpl.
      rewrite lookup_insert_eq. simpl.
      by rewrite !insert_insert_eq.
  - rewrite (contains_false _ _ Hg), lookup_insert_eq. simpl.
    rewrite contains_false by apply lookup_empty.
    rewrite lookup_insert_eq. simpl. rewrite lookup_insert_eq. simpl.
    by rewrite !insert_insert_eq.
Qed.

Lemma save_config_appended guild_id message_id button disk config :
  read_config disk = Return config →
  save_config guild_id message_id button disk
  = (Some (Json (appended guild_id message_id button config)), Return ()).
Proof.
  intros Hread. unfold save_config. rewrite Hread. simpl.
  by rewrite append_button_appended.
Qed.



Lemma buttons_at_appended guild_id message_id button (config : Config) k1 k2 :
  buttons_at (appended guild_id message_id button config) k1 k2
  = if decide (k1 = str guild_id ∧ k2 = str message_id)
    then Some (default [] (buttons_at config k1 k2) ++ [button])
    else buttons_at config k1 k2.
Proof.
  unfold appended, buttons_at.
  destruct (decide (k1 = str guild_id)) as [->|Hk1].
  - rewrite lookup_insert_eq. simpl.
    destruct (decide (k2 = str message_id)) as [->|Hk2].
    + rewrite lookup_insert_eq. by rewrite decide_True.
    + rewrite lookup_insert_ne by done.
      rewrite decide_False by (by intros [_ ?]).
      destruct (config !! str guild_id); simpl; [done|apply lookup_empty].
  - rewrite lookup_insert_ne by done.
    by rewrite decide_False by (by intros [? _]).
Qed.

(** ** Sequences of calls *)









Lemma occurrences_snoc trigger buttons button :
  trigger_id button = trigger →
  occurrences trigger (buttons ++ [button]) = S (occurrences trigger buttons).
Proof.
  intros Ht. unfold occurrences.
  rewrite filter_app, length_app, filter_cons, decide_True by done.
  simpl. lia.
Qed.

Lemma occurrences_elem trigger buttons button :
  button ∈ buttons → trigger_id button = trigger →
  (1 ≤ occurrences trigger buttons)%nat.
Proof.
  intros Hin Ht. unfold occurrences.
  assert (Hf : button ∈ filter (λ b, trigger_id b = trigger) buttons)
    by (by apply list_elem_of_filter).
  destruct (filter _ buttons); [by apply elem_of_nil in Hf|simpl; lia].
Qed.

Lemma occurrences_NoDup trigger buttons :
  NoDup (trigger_id <$> buttons) → (occurrences trigger buttons ≤ 1)%nat.
Proof.
  unfold occurrences. induction buttons as [|b bs IH]; simpl; intros Hnd.
  - lia.
  - apply NoDup_cons in Hnd as [Hb Hnd]. rewrite filter_cons.
    destruct (decide (trigger_id b = trigger)) as [<-|]; [|by apply IH].
    simpl. destruct (filter _ bs) as [|b' ?] eqn:Hf; [simpl; lia|].
    exfalso. apply Hb.
    assert (Hb' : b' ∈ filter (λ b0, trigger_id b0 = trigger_id b) bs)
      by (rewrite Hf; left).
    apply list_elem_of_filter in Hb' as [<- Hb'].
    by apply list_elem_of_fmap_2.
Qed.

(** ** Adding a triple that is already there *)

(** C1, as the specification states it, fails on the code: with role 7
    already saved for message 20 of guild 1, [save_config] for the same
    triple returns normally, the file changes, and the list holds the entry
    twice. *)
Lemma save_config_duplicate_counterexample :
  present example_config (triple example_call) ∧
  (save_config 1 20 example_button (Some (Json example_config))).2 = Return () ∧
  (save_config 1 20 example_button (Some (Json example_config))).1
    ≠ Some (Json example_config) ∧
  (save_config 1 20 example_button (Some (Json example_config))).1
    = Some (Json twice_config).
Proof.
  assert (Hsave :
    save_config 1 20 example_button (Some (Json example_config))
    = (Some (Json twice_config), Return ())) by (by vm_compute).
  rewrite Hsave. simpl. split_and!; [|done| |done].
  - exists [example_button], example_button.
    split; [done|]. split; [by apply list_elem_of_singleton|done].
  - intros H.
    assert (Hat : buttons_at twice_config "1" "20"
                  = buttons_at example_config "1" "20") by congruence.
    by vm_compute in Hat.
Qed.

(** C1, amended: [save_config] has no duplicate check.  When the triple of
    the call is already in the file, the call still returns normally and
    appends the button to the list of its (guild, message) pair, which then
    holds the trigger identifier at least twice; the other lists are
    untouched. *)
Theorem save_config_duplicate_appends (config : Config) (call : Call) :
  present config (triple call) →
  ∃ buttons config',
    buttons_at config (str call.(call_guild)) (str call.(call_message))
      = Some buttons ∧
    save_config call.(call_guild) call.(call_message) call.(call_button)
      (Some (Json config))
      = (Some (Json config'), Return ()) ∧
    buttons_at config' (str call.(call_guild)) (str call.(call_message))
      = Some (buttons ++ [call.(call_button)]) ∧
    (2 ≤ occurrences (trigger_id call.(call_button))
           (buttons ++ [call.(call_button)]))%nat ∧
    ¬ unique_triggers config' ∧
    ∀ k1 k2,
      ¬ (k1 = str call.(call_guild) ∧ k2 = str call.(call_message)) →
      buttons_at config' k1 k2 = buttons_at config k1 k2.
Proof.
  intros (buttons & button & Hat & Hin & Htrig). simpl in *.
  exists buttons, (appended call.(call_guild) call.(call_message)
                     call.(call_button) config).
  assert (Hat' :
    buttons_at (appended call.(call_guild) call.(call_message)
                  call.(call_button) config)
      (str call.(call_guild)) (str call.(call_message))
    = Some (buttons ++ [call.(call_button)])).
  { rewrite buttons_at_appended, decide_True by done. by rewrite Hat. }
  assert (Hocc : (2 ≤ occurrences (trigger_id call.(call_button))
                        (buttons ++ [call.(call_button)]))%nat).
  { rewrite occurrences_snoc by done.
    pose proof (occurrences_elem _ _ _ Hin Htrig). lia. }
  split_and!; [done| |done|done| |].
  - by apply save_config_appended.
  - intros Huniq. specialize (Huniq _ _ _ Hat').
    apply (occurrences_NoDup (trigger_id call.(call_button))) in Huniq. lia.
  - intros k1 k2 Hne. by rewrite buttons_at_appended, decide_False.
Qed.

Lemma save_config_duplicate_appends_witness :
  present example_config (triple example_call) ∧
  ∃ buttons config',
    buttons_at example_config (str 1) (str 20) = Some buttons ∧
    save_config 1 20 example_button (Some (Json example_config))
      = (Some (Json config'), Return ()) ∧
    buttons_at config' (str 1) (str 20) = Some (buttons ++ [example_button]) ∧
    (2 ≤ occurrences (trigger_id example_button)
           (buttons ++ [example_button]))%nat ∧
    ¬ unique_triggers config' ∧
    ∀ k1 k2,
      ¬ (k1 = str 1 ∧ k2 = str 20) →
      buttons_at config' k1 k2 = buttons_at example_config k1 k2.
Proof.
  assert (Hpresent : present example_config (triple example_call)).
  { exists [example_button], example_button.
    split; [reflexivity|].
    split; [apply list_elem_of_singleton; reflexivity|reflexivity]. }
  split; [exact Hpresent|].
  exact (save_config_duplicate_appends example_config example_call Hpresent).
Defined.

(** ** Uniqueness of the triple *)




(** ** Distinct triples *)



(** ** The frame of [save_config] *)

(** C9: on a file that is absent or holds a configuration, [save_config]
    leaves the list of every other (guild, message) pair as it was and gives
    the pair of the call its former list, empty if a key was missing, with
    the new button at the end. *)
Theorem save_config_frame (guild_id message_id : Z) (button : ButtonDict)
    (disk : Disk) (config : Config) :
  read_config disk = Return config →
  ∃ config',
    save_config guild_id message_id button disk
      = (Some (Json config'), Return ()) ∧
    buttons_at config' (str guild_id) (str message_id)
      = Some (default [] (buttons_at config (str guild_id) (str message_id))
                ++ [button]) ∧
    ∀ guild message,
      (guild, message) ≠ (str guild_id, str message_id) →
      buttons_at config' guild message = buttons_at config guild message.
Proof.
  intros Hread. exists (appended guild_id message_id button config).
  split_and!.
  - by apply save_config_appended.
  - by rewrite buttons_at_appended, decide_True.
  - intros guild message Hne.
    rewrite buttons_at_appended, decide_False; [done|].
    intros [-> ->]. by apply Hne.
Qed.

Lemma save_config_frame_witness :
  read_config (Some (Json example_config)) = Return example_config ∧
  ∃ config',
    save_config 1 21 example_button' (Some (Json example_config))
      = (Some (Json config'), Return ()) ∧
    buttons_at config' (str 1) (str 21)
      = Some (default [] (buttons_at example_config (str 1) (str 21))
                ++ [example_button']) ∧
    ∀ guild message,
      (guild, message) ≠ (str 1, str 21) →
      buttons_at config' guild message = buttons_at example_config guild message.
Proof.
  split; [reflexivity|].
  exact (save_config_frame 1 21 example_button' (Some (Json example_config))
           example_config eq_refl).
Defined.

(** ** The toggle *)

Lemma toggle_decision_revoke role roles :
  toggle_decision role roles = Revoke ↔ role ∈ roles.
Proof.
  unfold toggle_decision. case_bool_decide; split; done.
Qed.

Lemma toggle_decision_grant role roles :
  toggle_decision role roles = Grant ↔ role ∉ roles.
Proof.
  unfold toggle_decision. case_bool_decide; split; done.
Qed.

(** C3: the test of the callback removes the role exactly when the member
    has it and adds it otherwise; on no roles it adds, on the role alone it
    removes.  It is a function of the role and the role list only, and the
    role list changes through the platform alone: when the platform call
    fails, or the role is unknown to the guild, the list comes back as it
    was; when it succeeds, the list is the old one with the role removed or
    added according to the test. *)
Theorem toggle_decision_spec (role : Z) (roles : list Z) :
  (toggle_decision role roles = Revoke ↔ role ∈ roles) ∧
  (toggle_decision role roles = Grant ↔ role ∉ roles) ∧
  toggle_decision role [] = Grant ∧
  toggle_decision role [role] = Revoke ∧
  (∀ self guild_roles e, (callback self guild_roles (Some e) roles).1 = roles) ∧
  (∀ emoji colour guild_roles,
     role ∈ guild_roles →
     callback (ReactionRoleButton_init role emoji colour) guild_roles None roles
     = match toggle_decision role roles with
       | Revoke => (filter (λ r, r ≠ role) roles, RoleRemoved role)
       | Grant => (roles ++ [role], RoleAssigned role)
       end).
Proof.
  split_and!.
  - apply toggle_decision_revoke.
  - apply toggle_decision_grant.
  - apply toggle_decision_grant, not_elem_of_nil.
  - apply toggle_decision_revoke, list_elem_of_singleton. done.
  - intros self guild_roles e. unfold callback.
    destruct (get_role _ _); [|done].
    by destruct (toggle_decision _ _).
  - intros emoji colour guild_roles Hin. unfold callback, get_role. simpl.
    rewrite bool_decide_eq_true_2 by done.
    by destruct (toggle_decision _ _).
Qed.

(** A member without the role clicks twice: granted, then revoked, and
    back to the roles held before. *)
Lemma callback_twice role emoji colour guild_roles roles :
  role ∈ guild_roles → role ∉ roles →
  let button := ReactionRoleButton_init role emoji colour in
  callback button guild_roles None roles = (roles ++ [role], RoleAssigned role) ∧
  callback button guild_roles None (roles ++ [role]) = (roles, RoleRemoved role).
Proof.
  intros Hguild Hnot button. unfold callback, get_role. simpl.
  rewrite bool_decide_eq_true_2 by done.
  rewrite (proj2 (toggle_decision_grant role roles)) by done.
  rewrite (proj2 (toggle_decision_revoke role (roles ++ [role])))
    by (apply elem_of_app; right; left).
  split; [done|]. f_equal.
  rewrite filter_app, filter_cons, decide_False, filter_nil, app_nil_r
    by (intros H; by apply H).
  induction roles as [|r roles IH]; [done|].
  apply not_elem_of_cons in Hnot as [Hne Hnot].
  rewrite filter_cons, decide_True by done. f_equal. by apply IH.
Qed.

(** ** A file that does not parse *)

(** C4, as the specification states it, fails on the code: on a file that
    is no JSON, [setup] does not come back with an empty store, it raises,
    and the cog is not added. *)
Lemma setup_corrupt_counterexample :
  setup example_bot (Some NotJson) = (example_bot, Raise JSONDecodeError) ∧
  (setup example_bot (Some NotJson)).2 ≠ Return () ∧
  "ReactionRole" ∉ (setup example_bot (Some NotJson)).1.(cogs).
Proof.
  split_and!; [done|done|]. simpl. apply not_elem_of_nil.
Qed.

(** C4, amended: on a file that does not parse, [load_config] raises
    [json]'s decode error before it registers any view; nothing catches or
    logs it, so the constructor of the cog and [setup] raise it too and the
    bot is left as it was, without the cog. *)
Theorem load_config_corrupt (bot : Bot) :
  load_config bot (Some NotJson) = (bot, Raise JSONDecodeError) ∧
  ReactionRole_init bot (Some NotJson) = (bot, Raise JSONDecodeError) ∧
  setup bot (Some NotJson) = (bot, Raise JSONDecodeError) ∧
  ∀ disk, read_config disk = Raise JSONDecodeError ↔ disk = Some NotJson.
Proof.
  split_and!; [done..|].
  intros [[config|]|]; simpl; split; congruence.
Qed.

(** ** An interrupted save *)

(** C5, as the specification states it, fails on the code: the file is
    rewritten in place.  A save that stops between [open] and the end of
    [json.dump] leaves a file that does not parse, so that a load gives
    neither the state before nor the state after. *)
Lemma save_config_atomic_counterexample :
  Some NotJson ∈ save_config_interrupted 1 20 example_button
                   (Some (Json example_config)) ∧
  read_config (Some NotJson) = Raise JSONDecodeError ∧
  read_config (Some (Json example_config)) = Return example_config ∧
  read_config (save_config 1 20 example_button (Some (Json example_config))).1
    = Return twice_config.
Proof.
  split_and!; [|done|done|by vm_compute].
  unfold save_config_interrupted. simpl. rewrite append_button_appended.
  unfold write_steps. right. left.
Qed.

(** C5, amended: [save_config] writes the file in place, [open] truncating
    it and [json.dump] filling it.  Interrupted, it leaves the file as it
    was, or truncated or written in part, on which a load raises the decode
    error, or written in full with the new state; the middle case is there
    whenever the file was readable. *)
Theorem save_config_interrupted_states (guild_id message_id : Z)
    (button : ButtonDict) (disk disk' : Disk) :
  disk' ∈ save_config_interrupted guild_id message_id button disk →
  (disk' = disk
   ∨ (disk' = Some NotJson ∧ read_config disk' = Raise JSONDecodeError)
   ∨ (save_config guild_id message_id button disk = (disk', Return ())))
  ∧ (∀ config, read_config disk = Return config →
       Some NotJson ∈ save_config_interrupted guild_id message_id button disk).
Proof.
  intros Hin. unfold save_config_interrupted, save_config in *.
  destruct (read_config disk ≫= _) as [config'|e] eqn:Hrun.
  - split.
    + unfold write_steps in Hin.
      apply elem_of_cons in Hin as [->|Hin]; [by left|].
      apply elem_of_cons in Hin as [->|Hin]; [right; by left|].
      apply list_elem_of_singleton in Hin as ->. right. by right.
    + intros _ _. unfold write_steps. right. left.
  - split.
    + apply list_elem_of_singleton in Hin as ->. by left.
    + intros config Hread. rewrite Hread in Hrun. simpl in Hrun.
      by rewrite append_button_appended in Hrun.
Qed.

Lemma save_config_interrupted_states_witness :
  Some NotJson ∈ save_config_interrupted 1 20 example_button None ∧
  ((Some NotJson = None
    ∨ (Some NotJson = Some NotJson
       ∧ read_config (Some NotJson) = Raise JSONDecodeError)
    ∨ (save_config 1 20 example_button None = (Some NotJson, Return ())))
   ∧ (∀ config, read_config None = Return config →
        Some NotJson ∈ save_config_interrupted 1 20 example_button None)).
Proof.
  assert (Hin : Some NotJson ∈ save_config_interrupted 1 20 example_button None).
  { right. left. }
  split; [exact Hin|].
  exact (save_config_interrupted_states 1 20 example_button None
           (Some NotJson) Hin).
Defined.

(** ** Saving and loading *)

Lemma read_write_config (config : Config) (disk : Disk) :
  read_config (write_config config disk) = Return config.
Proof. done. Qed.



(** ** No file *)

(** C8: without a file [load_config] returns normally and registers
    nothing, so that [setup] adds the cog to a bot whose views are as they
    were; and [save_config] starts from [{}]: the first call returns
    normally and writes the one button under its guild and message. *)
Theorem no_file_starts_empty (bot : Bot) (guild_id message_id : Z)
    (button : ButtonDict) :
  load_config bot None = (bot, Return ()) ∧
  setup bot None = (add_cog bot "ReactionRole", Return ()) ∧
  (setup bot None).1.(views) = bot.(views) ∧
  read_config None = Return ∅ ∧
  save_config guild_id message_id button None
    = (Some (Json {[ str guild_id := {[ str message_id := [button] ]} ]}),
       Return ()).
Proof.
  split_and!; [done..|].
  rewrite (save_config_appended _ _ _ None ∅ eq_refl).
  unfold appended, buttons_at. rewrite lookup_empty. simpl.
  by rewrite !insert_empty.
Qed.

(** ** Trigger identifiers are role ids *)

Lemma add_item_ok view item view' :
  add_item view item = Return view' →
  Forall button_ok view → button_ok item → Forall button_ok view'.
Proof.
  unfold add_item. case_decide; [done|]. intros [= <-] Hview Hitem.
  apply Forall_app. split; [done|]. by apply Forall_singleton.
Qed.

Lemma load_buttons_ok buttons : ∀ view view',
  load_buttons buttons view = Return view' →
  Forall button_ok view → Forall button_ok view'.
Proof.
  induction buttons as [|button rest IH]; simpl; intros view view' Hload Hok.
  - by injection Hload as <-.
  - destruct (ButtonStyle_getattr _) as [colour|]; [simpl in Hload|done].
    destruct (add_item view _) as [view1|] eqn:Hadd; [simpl in Hload|done].
    apply (IH view1); [done|]. by apply (add_item_ok _ _ _ Hadd).
Qed.

Lemma rebuild_row_ok children : ∀ view view',
  rebuild_row children view = Return view' →
  Forall button_ok view → Forall button_ok view'.
Proof.
  induction children as [|item rest IH]; simpl; intros view view' Hrow Hok.
  - by injection Hrow as <-.
  - destruct (int _) as [id|]; [simpl in Hrow|done].
    destruct (add_item view _) as [view1|] eqn:Hadd; [simpl in Hrow|done].
    apply (IH view1); [done|]. by apply (add_item_ok _ _ _ Hadd).
Qed.

Lemma rebuild_rows_ok components : ∀ view view',
  rebuild_rows components view = Return view' →
  Forall button_ok view → Forall button_ok view'.
Proof.
  induction components as [|row rest IH]; simpl; intros view view' Hrows Hok.
  - by injection Hrows as <-.
  - destruct (rebuild_row row view) as [view1|] eqn:Hrow; [simpl in Hrows|done].
    apply (IH view1); [done|]. by apply (rebuild_row_ok _ _ _ Hrow).
Qed.

(** C10: the constructor sets [custom_id] to [str(role_id)], so the trigger
    identifier of a button is the decimal numeral of its role, [int] reads
    the role back from it (as lines 179-185 do), and the callback goes by
    the role alone.  Buttons for the same role have the same trigger
    identifier whatever their emoji and colour, buttons for different roles
    have different ones; and every view that [load_config] or the command
    builds holds only such buttons. *)
Theorem custom_id_is_role_id (role : Z) (emoji : string) (colour : ButtonStyle) :
  (ReactionRoleButton_init role emoji colour).(custom_id) = str role ∧
  (ReactionRoleButton_init role emoji colour).(role_id) = role ∧
  int (ReactionRoleButton_init role emoji colour).(custom_id) = Return role ∧
  rebuild_row [item_of (ReactionRoleButton_init role emoji colour)] []
    = Return [ReactionRoleButton_init role emoji colour] ∧
  (∀ emoji' colour',
     (ReactionRoleButton_init role emoji' colour').(custom_id)
     = (ReactionRoleButton_init role emoji colour).(custom_id)) ∧
  (∀ emoji' colour' guild_roles api user_roles,
     callback (ReactionRoleButton_init role emoji' colour') guild_roles api
       user_roles
     = callback (ReactionRoleButton_init role emoji colour) guild_roles api
         user_roles) ∧
  (∀ role' emoji' colour',
     (ReactionRoleButton_init role' emoji' colour').(custom_id)
     = (ReactionRoleButton_init role emoji colour).(custom_id) →
     role' = role) ∧
  (∀ buttons view, load_buttons buttons [] = Return view →
                   Forall button_ok view) ∧
  (∀ components view, rebuild_rows components [] = Return view →
                      Forall button_ok view).
Proof.
  split_and!; try done.
  - apply int_str.
  - simpl. rewrite int_str. done.
  - intros role' emoji' colour' H. simpl in H. by apply str_inj in H.
  - intros buttons view H. by apply (load_buttons_ok _ _ _ H).
  - intros components view H. by apply (rebuild_rows_ok _ _ _ H).
Qed.

(** ** More on the callback *)

(** X1: a click that the platform carries out flips the membership of the
    button's role and of no other role. *)
Theorem callback_flips (role : Z) (emoji : string) (colour : ButtonStyle)
    (guild_roles roles : list Z) :
  role ∈ guild_roles →
  (role ∈ (callback (ReactionRoleButton_init role emoji colour) guild_roles
             None roles).1 ↔ role ∉ roles) ∧
  ∀ r, r ≠ role →
    (r ∈ (callback (ReactionRoleButton_init role emoji colour) guild_roles
            None roles).1 ↔ r ∈ roles).
Proof.
  intros Hguild. unfold callback, get_role. simpl.
  rewrite bool_decide_eq_true_2 by done.
  unfold toggle_decision. case_bool_decide as Hin; simpl.
  - split.
    + rewrite list_elem_of_filter. split; [by intros [Hne _]|done].
    + intros r Hne. rewrite list_elem_of_filter. split; [by intros [_ ?]|done].
  - split.
    + split; [done|]. intros _. apply elem_of_app. right. left.
    + intros r Hne. rewrite elem_of_app, list_elem_of_singleton. split; [|by left].
      by intros [?|?].
Qed.

Lemma callback_flips_witness :
  7 ∈ [5; 7] ∧
  (7 ∈ (callback (ReactionRoleButton_init 7 "x" red) [5; 7] None [5]).1
     ↔ 7 ∉ [5]) ∧
  ∀ r, r ≠ 7 →
    (r ∈ (callback (ReactionRoleButton_init 7 "x" red) [5; 7] None [5]).1
       ↔ r ∈ [5]).
Proof.
  assert (Hguild : 7 ∈ [5; 7]) by (right; left).
  split; [exact Hguild|].
  exact (callback_flips 7 "x" red [5; 7] [5] Hguild).
Defined.

(** X2: the answer of the callback tells what happened.  "Role Removed" and
    "Role Assigned" come only when the guild knows the role, the member had
    it, respectively had it not, and the platform call went through;
    "Permission Error" only when the platform raised [Forbidden]; "Error"
    when the guild does not know the role or the platform raised anything
    else.  The callback never answers as the command does. *)
Theorem callback_answer (self : ReactionRoleButton) (guild_roles : list Z)
    (api : option Exception) (roles : list Z) :
  match (callback self guild_roles api roles).2 with
  | RoleRemoved role =>
      role = self.(role_id) ∧ role ∈ guild_roles ∧ role ∈ roles ∧ api = None
  | RoleAssigned role =>
      role = self.(role_id) ∧ role ∈ guild_roles ∧ (role ∉ roles) ∧ api = None
  | PermissionError =>
      self.(role_id) ∈ guild_roles ∧ api = Some Forbidden
  | Error e =>
      ((self.(role_id) ∉ guild_roles) ∧ e = AttributeError)
      ∨ (self.(role_id) ∈ guild_roles ∧ api = Some e ∧ e ≠ Forbidden)
  | ReactionRoleAdded _ => False
  end.
Proof.
  unfold callback, get_role. case_bool_decide as Hguild; simpl.
  - unfold toggle_decision. case_bool_decide as Hin;
      destruct api as [[]|]; simpl; try done; right; done.
  - by left.
Qed.

(** X3: a member who has not the role and clicks twice, the platform
    carrying out both clicks, is granted the role and then loses it, and
    holds the same roles in the same order as before. *)
Theorem callback_grant_then_revoke (role : Z) (emoji : string)
    (colour : ButtonStyle) (guild_roles roles : list Z) :
  role ∈ guild_roles → role ∉ roles →
  ∃ granted,
    callback (ReactionRoleButton_init role emoji colour) guild_roles None roles
      = (granted, RoleAssigned role) ∧
    callback (ReactionRoleButton_init role emoji colour) guild_roles None
      granted
      = (roles, RoleRemoved role).
Proof.
  intros Hguild Hnot. exists (roles ++ [role]).
  apply callback_twice; done.
Qed.

Lemma callback_grant_then_revoke_witness :
  7 ∈ [5; 7] ∧ (7 ∉ [5]) ∧
  ∃ granted,
    callback (ReactionRoleButton_init 7 "x" red) [5; 7] None [5]
      = (granted, RoleAssigned 7) ∧
    callback (ReactionRoleButton_init 7 "x" red) [5; 7] None granted
      = ([5], RoleRemoved 7).
Proof.
  assert (Hguild : 7 ∈ [5; 7]) by (right; left).
  assert (Hnot : 7 ∉ [5]).
  { intros H. apply list_elem_of_singleton in H. discriminate H. }
  split; [exact Hguild|]. split; [exact Hnot|].
  exact (callback_grant_then_revoke 7 "x" red [5; 7] [5] Hguild Hnot).
Defined.

(** ** Message links *)

Lemma split_no_sep sep s :
  sep ∉ list_ascii_of_string s → split sep s = [s].
Proof.
  induction s as [|c s IH]; simpl; intros Hnot; [done|].
  apply not_elem_of_cons in Hnot as [Hne Hnot].
  rewrite decide_False by done. by rewrite IH.
Qed.

Lemma split_nonempty sep s : split sep s ≠ [].
Proof.
  destruct s as [|c s]; simpl; [done|].
  case_decide; [done|]. by destruct (split sep s).
Qed.

Lemma split_snoc sep s t :
  sep ∉ list_ascii_of_string t →
  split sep (s +:+ String sep t) = split sep s ++ [t].
Proof.
  intros Hnot. induction s as [|c s IH]; simpl.
  - rewrite decide_True by done. by rewrite split_no_sep.
  - rewrite IH. case_decide; [done|].
    pose proof (split_nonempty sep s). by destruct (split sep s).
Qed.

Lemma uint_no_slash d :
  "/"%char ∉ list_ascii_of_string (NilEmpty.string_of_uint d).
Proof.
  induction d; simpl; try apply not_elem_of_nil;
    (apply not_elem_of_cons; split; [discriminate|done]).
Qed.

Lemma str_no_slash n : "/"%char ∉ list_ascii_of_string (str n).
Proof.
  unfold str, NilZero.string_of_int, NilZero.string_of_uint.
  destruct (Z.to_int n) as [d|d].
  - destruct d; try apply uint_no_slash.
    simpl. apply not_elem_of_cons. split; [discriminate|apply not_elem_of_nil].
  - simpl. apply not_elem_of_cons. split; [discriminate|].
    destruct d; try apply uint_no_slash.
    simpl. apply not_elem_of_cons. split; [discriminate|apply not_elem_of_nil].
Qed.

Lemma split_link prefix channel_id message_id :
  split "/" (prefix +:+ "/" +:+ str channel_id +:+ "/" +:+ str message_id)
  = split "/" prefix ++ [str channel_id; str message_id].
Proof.
  assert (Happ : ∀ a b c : string, a +:+ (b +:+ c) = (a +:+ b) +:+ c).
  { intros a b c. induction a as [|x a IH]; [done|].
    change (String x (a +:+ (b +:+ c)) = String x ((a +:+ b) +:+ c)).
    by rewrite IH. }
  transitivity
    (split "/" ((prefix +:+ String "/" (str channel_id))
                  +:+ String "/" (str message_id))).
  { f_equal. by rewrite <- Happ. }
  rewrite !split_snoc by apply str_no_slash.
  by rewrite <- app_assoc.
Qed.

(** X4: a link that ends in [/<channel id>/<message id>], whatever comes
    before, gives these two ids back at lines 157-159. *)
Theorem link_ids (prefix : string) (channel_id message_id : Z) :
  from_end
    (split "/" (prefix +:+ "/" +:+ str channel_id +:+ "/" +:+ str message_id)) 2
    ≫= int = Return channel_id ∧
  from_end
    (split "/" (prefix +:+ "/" +:+ str channel_id +:+ "/" +:+ str message_id)) 1
    ≫= int = Return message_id.
Proof.
  rewrite split_link. unfold from_end.
  rewrite rev_app_distr. simpl. by rewrite !int_str.
Qed.

(** X5: a link without a [/] has one part only, so that [parts[-2]] raises
    [IndexError]: the command answers with that error and leaves the file,
    the bot and the messages as they were. *)
Theorem reaction_role_no_slash (guild : option Z) (message_link : string)
    (role : Z) (emoji : string) (colour : option string) (choice : nat)
    (edit : option Exception) (w : World) :
  "/"%char ∉ list_ascii_of_string message_link →
  reaction_role guild message_link role emoji colour choice edit w
  = (w, Error IndexError).
Proof.
  intros Hnot. unfold reaction_role, reaction_role_try, reaction_role_prepare.
  by rewrite split_no_sep.
Qed.

Lemma reaction_role_no_slash_witness :
  ("/"%char ∉ list_ascii_of_string "20") ∧
  reaction_role (Some 1) "20" 7 "x" None 0%nat None example_world
  = (example_world, Error IndexError).
Proof.
  assert (Hnot : "/"%char ∉ list_ascii_of_string "20").
  { simpl. intros H. apply elem_of_cons in H as [H|H]; [discriminate H|].
    apply list_elem_of_singleton in H. discriminate H. }
  split; [exact Hnot|].
  exact (reaction_role_no_slash (Some 1) "20" 7 "x" None 0%nat None
           example_world Hnot).
Defined.

(** ** More on the command *)


Lemma reaction_role_prepare_link prefix channel_id message_id role emoji colour
    choice w channel components old :
  w.(w_channels) !! channel_id = Some channel →
  channel !! message_id = Some components →
  rebuild_rows components [] = Return old →
  (length old < View_max_children)%nat →
  reaction_role_prepare
    (prefix +:+ "/" +:+ str channel_id +:+ "/" +:+ str message_id)
    role emoji colour choice w
  = Return (channel_id, message_id, default (random_choice choice) colour,
            old ++ [ReactionRoleButton_init role emoji
                      (colour_map_get (default (random_choice choice) colour))]).
Proof.
  intros Hch Hm Hold Hlen. unfold reaction_role_prepare.
  rewrite split_link. unfold from_end. rewrite rev_app_distr. simpl.
  rewrite !int_str. simpl. rewrite Hch. simpl. rewrite Hm. simpl.
  rewrite Hold. simpl. unfold add_item.
  rewrite decide_False by lia. done.
Qed.

(** X6: the command on a link ending in [/<channel id>/<message id>], for a
    message that is there and whose buttons can be rebuilt and leave room
    for one more, in a guild, with a file that is absent or parses.  The
    view is registered, the button is saved; the message gets the view and
    the answer is "Reaction Role Added" when the edit goes through, and
    otherwise the message stays as it was and the answer is the error,
    although the view is registered and the button saved. *)
Theorem reaction_role_attach (prefix : string) (guild_id channel_id message_id : Z)
    (role : Z) (emoji : string) (colour : option string) (choice : nat)
    (edit : option Exception) (w : World) (config : Config)
    (channel : gmap Z (list (list Item))) (components : list (list Item))
    (old : View) :
  w.(w_channels) !! channel_id = Some channel →
  channel !! message_id = Some components →
  rebuild_rows components [] = Return old →
  (length old < View_max_children)%nat →
  read_config w.(w_disk) = Return config →
  let message_link :=
    prefix +:+ "/" +:+ str channel_id +:+ "/" +:+ str message_id in
  let col := default (random_choice choice) colour in
  let view := old ++ [ReactionRoleButton_init role emoji (colour_map_get col)] in
  reaction_role (Some guild_id) message_link role emoji colour choice edit w
  = ({| w_disk :=
          Some (Json (appended guild_id message_id
                        (button_dict role emoji col) config));
        w_bot := add_view w.(w_bot) view message_id;
        w_channels :=
          match edit with
          | None =>
              <[channel_id := <[message_id := components_of view]> channel]>
                w.(w_channels)
          | Some _ => w.(w_channels)
          end |},
     match edit with
     | None => ReactionRoleAdded message_link
     | Some e => Error e
     end).
Proof.
  intros Hch Hm Hold Hlen Hread message_link col view.
  unfold reaction_role, reaction_role_try.
  unfold message_link.
  rewrite (reaction_role_prepare_link _ _ _ _ _ _ _ _ _ _ _ Hch Hm Hold Hlen).
  simpl. rewrite (save_config_appended _ _ _ _ _ Hread).
  destruct edit as [e|]; [done|]. simpl. do 2 f_equal.
  apply map_eq. intros k. destruct (decide (k = channel_id)) as [->|Hne].
  - rewrite lookup_alter_eq, lookup_insert_eq, Hch. done.
  - by rewrite lookup_alter_ne, lookup_insert_ne.
Qed.

Lemma reaction_role_attach_witness :
  example_world.(w_channels) !! 10 = Some {[ 20 := [] ]} ∧
  ({[ 20 := [] ]} : gmap Z (list (list Item))) !! 20 = Some [] ∧
  rebuild_rows [] [] = Return [] ∧
  (length ([] : View) < View_max_children)%nat ∧
  read_config example_world.(w_disk) = Return ∅ ∧
  reaction_role (Some 1)
    ("https://discord.com/channels/1" +:+ "/" +:+ str 10 +:+ "/" +:+ str 20)
    7 "x" (Some "red") 0%nat None example_world
  = ({| w_disk := Some (Json (appended 1 20 (button_dict 7 "x" "red") ∅));
        w_bot := add_view example_world.(w_bot)
                   ([] ++ [ReactionRoleButton_init 7 "x" (colour_map_get "red")])
                   20;
        w_channels :=
          <[10 := <[20 := components_of
                            ([] ++ [ReactionRoleButton_init 7 "x"
                                      (colour_map_get "red")])]>
                    {[ 20 := [] ]}]>
            example_world.(w_channels) |},
     ReactionRoleAdded
       ("https://discord.com/channels/1" +:+ "/" +:+ str 10 +:+ "/" +:+ str 20)).
Proof.
  assert (H1 : example_world.(w_channels) !! 10 = Some {[ 20 := [] ]})
    by reflexivity.
  assert (H2 : ({[ 20 := [] ]} : gmap Z (list (list Item))) !! 20 = Some [])
    by reflexivity.
  assert (H3 : rebuild_rows [] [] = Return ([] : View)) by reflexivity.
  assert (H4 : (length ([] : View) < View_max_children)%nat)
    by (unfold View_max_children; simpl; lia).
  assert (H5 : read_config example_world.(w_disk) = Return ∅) by reflexivity.
  split; [exact H1|]. split; [exact H2|]. split; [exact H3|].
  split; [exact H4|]. split; [exact H5|].
  exact (reaction_role_attach "https://discord.com/channels/1" 1 10 20 7 "x"
           (Some "red") 0%nat None example_world ∅ {[ 20 := [] ]} [] []
           H1 H2 H3 H4 H5).
Defined.



(** X8: outside a guild the command saves nothing and edits nothing, and
    answers with an error, whatever its other arguments. *)
Theorem reaction_role_no_guild (message_link : string) (role : Z)
    (emoji : string) (colour : option string) (choice : nat)
    (edit : option Exception) (w : World) :
  (reaction_role None message_link role emoji colour choice edit w).1.(w_disk)
    = w.(w_disk) ∧
  (reaction_role None message_link role emoji colour choice edit w).1.(w_channels)
    = w.(w_channels) ∧
  ∃ e, (reaction_role None message_link role emoji colour choice edit w).2
       = Error e.
Proof.
  unfold reaction_role, reaction_role_try.
  destruct (reaction_role_prepare _ _ _ _ _ _) as [[[[ch m] col] view]|e0];
    simpl; eauto.
Qed.

(** X9: a file that does not parse is never written over.  The command
    then always answers with an error, edits no message, and leaves the
    file as it is. *)
Theorem reaction_role_corrupt (guild : option Z) (message_link : string)
    (role : Z) (emoji : string) (colour : option string) (choice : nat)
    (edit : option Exception) (w : World) :
  w.(w_disk) = Some NotJson →
  (reaction_role guild message_link role emoji colour choice edit w).1.(w_disk)
    = Some NotJson ∧
  (reaction_role guild message_link role emoji colour choice edit w).1.(w_channels)
    = w.(w_channels) ∧
  ∃ e, (reaction_role guild message_link role emoji colour choice edit w).2
       = Error e.
Proof.
  intros Hdisk. unfold reaction_role, reaction_role_try.
  destruct (reaction_role_prepare _ _ _ _ _ _) as [[[[ch m] col] view]|e0];
    simpl; [|eauto].
  destruct guild as [guild_id|]; simpl; [|eauto].
  rewrite Hdisk. simpl. eauto.
Qed.

Lemma reaction_role_corrupt_witness :
  (Some NotJson : Disk) = Some NotJson ∧
  (reaction_role (Some 1) example_link 7 "x" None 0%nat None
     {| w_disk := Some NotJson; w_bot := example_bot;
        w_channels := example_world.(w_channels) |}).1.(w_disk)
    = Some NotJson ∧
  (reaction_role (Some 1) example_link 7 "x" None 0%nat None
     {| w_disk := Some NotJson; w_bot := example_bot;
        w_channels := example_world.(w_channels) |}).1.(w_channels)
    = example_world.(w_channels) ∧
  ∃ e, (reaction_role (Some 1) example_link 7 "x" None 0%nat None
          {| w_disk := Some NotJson; w_bot := example_bot;
             w_channels := example_world.(w_channels) |}).2
       = Error e.
Proof.
  split; [reflexivity|].
  exact (reaction_role_corrupt (Some 1) example_link 7 "x" None 0%nat None
           {| w_disk := Some NotJson; w_bot := example_bot;
              w_channels := example_world.(w_channels) |} eq_refl).
Defined.



(** ** Components and views *)

Lemma rebuild_row_app l1 : ∀ l2 view,
  rebuild_row (l1 ++ l2) view = rebuild_row l1 view ≫= rebuild_row l2.
Proof.
  induction l1 as [|item l1 IH]; intros l2 view; simpl; [done|].
  destruct (int _) as [id|]; simpl; [|done].
  destruct (add_item _ _) as [view1|]; simpl; [|done].
  apply IH.
Qed.

Lemma rebuild_rows_rows_of fuel : ∀ items view,
  (length items ≤ fuel)%nat →
  rebuild_rows (rows_of fuel items) view = rebuild_row items view.
Proof.
  induction fuel as [|fuel IH]; intros items view Hlen.
  - destruct items; [done|simpl in Hlen; lia].
  - destruct items as [|item items]; [done|].
    change (rows_of (S fuel) (item :: items))
      with (take 5 (item :: items) :: rows_of fuel (drop 5 (item :: items))).
    rewrite <- (take_drop 5 (item :: items)) at 3.
    rewrite rebuild_row_app.
    change (rebuild_rows (?r :: ?rs) view)
      with (rebuild_row r view ≫= rebuild_rows rs).
    destruct (rebuild_row (take 5 (item :: items)) view) as [view1|];
      simpl; [|done].
    apply IH. simpl in Hlen. rewrite length_drop. simpl. lia.
Qed.

Lemma rebuild_row_view view : ∀ acc,
  Forall button_ok view →
  (length acc + length view ≤ View_max_children)%nat →
  rebuild_row (item_of <$> view) acc = Return (acc ++ view).
Proof.
  induction view as [|button view IH]; intros acc Hok Hlen; simpl.
  - by rewrite app_nil_r.
  - apply Forall_cons in Hok as [Hbutton Hok].
    unfold button_ok in Hbutton. rewrite Hbutton, int_str. simpl.
    unfold add_item. simpl in Hlen. rewrite decide_False by lia. simpl.
    assert (Heq : ReactionRoleButton_init (role_id button) (emoji button)
                    (style button) = button).
    { destruct button as [s e c r]. simpl in *. by rewrite Hbutton. }
    rewrite Heq, IH; [|done|rewrite length_app; simpl; lia].
    by rewrite <- app_assoc.
Qed.

(** X11: reading the buttons back from a message gives the view that was
    sent.  For a view of at most 25 buttons whose trigger identifiers are
    the numerals of their roles, as every view of the cog is, the loops of
    lines 179-184 over [components_of view] rebuild the view, button for
    button and in order. *)
Theorem rebuild_components (view : View) :
  Forall button_ok view →
  (length view ≤ View_max_children)%nat →
  rebuild_rows (components_of view) [] = Return view.
Proof.
  intros Hok Hlen. unfold components_of.
  rewrite rebuild_rows_rows_of by (by rewrite length_fmap).
  by rewrite rebuild_row_view.
Qed.

Lemma rebuild_components_witness :
  Forall button_ok [ReactionRoleButton_init 7 "x" red;
                    ReactionRoleButton_init 8 "y" green] ∧
  (length [ReactionRoleButton_init 7 "x" red;
           ReactionRoleButton_init 8 "y" green] ≤ View_max_children)%nat ∧
  rebuild_rows
    (components_of [ReactionRoleButton_init 7 "x" red;
                    ReactionRoleButton_init 8 "y" green]) []
  = Return [ReactionRoleButton_init 7 "x" red;
            ReactionRoleButton_init 8 "y" green].
Proof.
  assert (Hok : Forall button_ok [ReactionRoleButton_init 7 "x" red;
                                  ReactionRoleButton_init 8 "y" green]).
  { repeat constructor. }
  assert (Hlen : (length [ReactionRoleButton_init 7 "x" red;
                          ReactionRoleButton_init 8 "y" green]
                  ≤ View_max_children)%nat).
  { unfold View_max_children. simpl. lia. }
  split; [exact Hok|]. split; [exact Hlen|].
  exact (rebuild_components _ Hok Hlen).
Defined.

(** X12: [ReactionRoleView(buttons)] holds the buttons it is given, in
    order, when there are at most 25 of them, and raises [ValueError]
    otherwise. *)
Theorem ReactionRoleView_init_buttons (buttons : list ReactionRoleButton) :
  ReactionRoleView_init (Some buttons)
  = if decide (length buttons ≤ View_max_children)%nat
    then Return buttons else Raise ValueError.
Proof.
  unfold ReactionRoleView_init.
  assert (Hraise : ∀ l : list ReactionRoleButton,
    foldl (λ view button, view ≫= λ view, add_item view button)
      (Raise ValueError) l = Raise ValueError).
  { induction l as [|b l IH]; simpl; [done|apply IH]. }
  assert (Hgen : ∀ l acc,
    (length acc ≤ View_max_children)%nat →
    foldl (λ view button, view ≫= λ view, add_item view button) (Return acc) l
    = if decide (length acc + length l ≤ View_max_children)%nat
      then Return (acc ++ l) else Raise ValueError).
  { induction l as [|b l IH]; intros acc Hacc; simpl.
    - rewrite Nat.add_0_r, decide_True by done. by rewrite app_nil_r.
    - unfold add_item at 2. case_decide as Hfull; simpl.
      + rewrite Hraise, decide_False by lia. done.
      + rewrite IH by (rewrite length_app; simpl; lia).
        rewrite length_app, <- app_assoc. simpl.
        repeat case_decide; try done; lia. }
  rewrite Hgen by (simpl; lia). done.
Qed.

(** ** Colours across a restart *)

Lemma random_choice_name choice : random_choice choice ∈ colour_names.
Proof.
  unfold random_choice, colour_names.
  pose proof (Nat.mod_upper_bound choice 4) as Hlt.
  destruct (choice mod 4)%nat as [|[|[|[|n]]]]; simpl;
    [set_solver..|lia].
Qed.

Lemma colour_name_style colour :
  colour ∈ colour_names →
  ButtonStyle_getattr colour = Return (colour_map_get colour).
Proof.
  unfold colour_names. intros Hin.
  repeat (apply elem_of_cons in Hin as [->|Hin]; [done|]).
  by apply elem_of_nil in Hin.
Qed.

(** X13: a button attached with one of the four colour names, or with none
    so that the colour is drawn, comes back from the file as the command
    built it: [load_config] makes of the saved dict the button with the
    same role, emoji and style. *)
Theorem attached_button_reloads (role : Z) (emoji : string)
    (colour : option string) (choice : nat) :
  (∀ name, colour = Some name → name ∈ colour_names) →
  load_buttons
    [button_dict role emoji (default (random_choice choice) colour)] []
  = Return [ReactionRoleButton_init role emoji
              (colour_map_get (default (random_choice choice) colour))].
Proof.
  intros Hnames.
  assert (Hin : default (random_choice choice) colour ∈ colour_names).
  { destruct colour as [name|]; simpl; [by apply Hnames|].
    apply random_choice_name. }
  simpl. by rewrite (colour_name_style _ Hin).
Qed.

Lemma attached_button_reloads_witness :
  (∀ name, (None : option string) = Some name → name ∈ colour_names) ∧
  load_buttons [button_dict 7 "x" (default (random_choice 2) None)] []
  = Return [ReactionRoleButton_init 7 "x"
              (colour_map_get (default (random_choice 2) None))].
Proof.
  assert (H : ∀ name, (None : option string) = Some name →
                      name ∈ colour_names).
  { intros name Hnone. discriminate Hnone. }
  split; [exact H|].
  exact (attached_button_reloads 7 "x" None 2 H).
Defined.






(** ** What a start registers *)





(** ** The order of saves *)

Lemma lookup_appended guild_id message_id button (config : Config) k :
  appended guild_id message_id button config !! k
  = if decide (k = str guild_id)
    then Some (<[str message_id :=
                   default [] (buttons_at config (str guild_id)
                                 (str message_id)) ++ [button]]>
                 (default ∅ (config !! str guild_id)))
    else config !! k.
Proof.
  unfold appended. case_decide as Hk.
  - subst k. by rewrite lookup_insert_eq.
  - by rewrite lookup_insert_ne.
Qed.

Lemma appended_commute g1 m1 b1 g2 m2 b2 (config : Config) :
  (g1, m1) ≠ (g2, m2) →
  appended g2 m2 b2 (appended g1 m1 b1 config)
  = appended g1 m1 b1 (appended g2 m2 b2 config).
Proof.
  intros Hne. apply map_eq. intros k.
  rewrite !lookup_appended, !buttons_at_appended.
  rewrite (decide_False (P := str g2 = str g1 ∧ str m2 = str m1)).
  2:{ intros [Hg Hm]. apply str_inj in Hg, Hm. congruence. }
  rewrite (decide_False (P := str g1 = str g2 ∧ str m1 = str m2)).
  2:{ intros [Hg Hm]. apply str_inj in Hg, Hm. congruence. }
  destruct (decide (g1 = g2)) as [<-|Hg].
  - assert (Hm : str m1 ≠ str m2).
    { intros Hm. apply str_inj in Hm. congruence. }
    rewrite !(decide_True (P := str g1 = str g1)) by done.
    case_decide; [|done]. simpl. f_equal. by apply insert_insert_ne.
  - assert (Hs : str g1 ≠ str g2).
    { intros Hs. by apply str_inj in Hs. }
    rewrite (decide_False (P := str g2 = str g1)) by done.
    rewrite (decide_False (P := str g1 = str g2)) by done.
    repeat case_decide; congruence.
Qed.

(** X16: two saves aimed at different (guild, message) pairs can be made
    in either order: the file reads back as the same mapping.  (The texts
    differ in the order of their keys, which [json.load] does not keep
    apart.) *)
Theorem save_config_commute (g1 m1 : Z) (b1 : ButtonDict) (g2 m2 : Z)
    (b2 : ButtonDict) (disk : Disk) (config : Config) :
  read_config disk = Return config →
  (g1, m1) ≠ (g2, m2) →
  read_config (save_config g2 m2 b2 (save_config g1 m1 b1 disk).1).1
  = read_config (save_config g1 m1 b1 (save_config g2 m2 b2 disk).1).1.
Proof.
  intros Hread Hne.
  rewrite (save_config_appended g1 m1 b1 _ _ Hread).
  rewrite (save_config_appended g2 m2 b2 _ _ Hread). simpl.
  rewrite (save_config_appended g2 m2 b2
             (Some (Json (appended g1 m1 b1 config))) _ eq_refl).
  rewrite (save_config_appended g1 m1 b1
             (Some (Json (appended g2 m2 b2 config))) _ eq_refl).
  simpl. f_equal. by apply appended_commute.
Qed.

Lemma save_config_commute_witness :
  read_config None = Return ∅ ∧
  (1, 20) ≠ (1, 21) ∧
  read_config
    (save_config 1 21 example_button' (save_config 1 20 example_button None).1).1
  = read_config
      (save_config 1 20 example_button
         (save_config 1 21 example_button' None).1).1.
Proof.
  assert (Hne : (1, 20) ≠ (1, 21)).
  { intros H. discriminate H. }
  split; [reflexivity|]. split; [exact Hne|].
  exact (save_config_commute 1 20 example_button 1 21 example_button' None ∅
           eq_refl Hne).
Defined.
